(** * DocSidebarItem: a shallow embedding of src/src/theme/DocSidebarItem/index.js

    The sidebar data arrives as plain JS objects.  A sidebar item is modelled
    with every field the component reads; [type] stays a string because the
    component dispatches on it with [switch]/[===] and must cope with values
    other than "link" and "category".  React elements are modelled as the
    component they name plus its props; the markup a component returns is a
    record of the attributes and children it sets. *)

From Stdlib Require Import String Ascii List Bool ZArith.
Import ListNotations.
Open Scope string_scope.
Set Warnings "-register-all".

(** ** Data model *)

(** The JS value found in [item.customProps]: absent/[undefined], [null], a
    string, or an object whose [method] property is read (absent = [None]). *)
Inductive custom_props :=
| CPUndefined
| CPNull
| CPString (s : string)
| CPObject (method : option string).

(** JS truthiness of [customProps] ([if (customProps)]). *)
Definition custom_props_truthy (cp : custom_props) : bool :=
  match cp with
  | CPUndefined | CPNull => false
  | CPString s => negb (String.eqb s "")
  | CPObject _ => true
  end.

(** [customProps.method]; a string has no [method] property. *)
Definition custom_props_method (cp : custom_props) : option string :=
  match cp with
  | CPObject m => m
  | _ => None
  end.

(** [customProps === "versioned"] (strict equality: only the string itself). *)
Definition custom_props_strict_eq_string (cp : custom_props) (s : string) : bool :=
  match cp with
  | CPString s' => String.eqb s' s
  | _ => false
  end.

Inductive sidebar_item :=
| SidebarItem (type : string) (label : string) (href : string)
    (items : list sidebar_item) (collapsible : bool) (collapsed : bool)
    (customProps : custom_props).

Definition item_type (i : sidebar_item) : string :=
  match i with SidebarItem t _ _ _ _ _ _ => t end.
Definition item_label (i : sidebar_item) : string :=
  match i with SidebarItem _ l _ _ _ _ _ => l end.
Definition item_href (i : sidebar_item) : string :=
  match i with SidebarItem _ _ h _ _ _ _ => h end.
Definition item_items (i : sidebar_item) : list sidebar_item :=
  match i with SidebarItem _ _ _ xs _ _ _ => xs end.
Definition item_collapsible (i : sidebar_item) : bool :=
  match i with SidebarItem _ _ _ _ c _ _ => c end.
Definition item_collapsed (i : sidebar_item) : bool :=
  match i with SidebarItem _ _ _ _ _ c _ => c end.
Definition item_customProps (i : sidebar_item) : custom_props :=
  match i with SidebarItem _ _ _ _ _ _ cp => cp end.

(** Induction over the nested item tree. *)
Fixpoint sidebar_item_rect' (P : sidebar_item -> Prop)
  (H : forall t l h xs c cd cp, Forall P xs -> P (SidebarItem t l h xs c cd cp))
  (i : sidebar_item) : P i :=
  match i with
  | SidebarItem t l h xs c cd cp =>
      H t l h xs c cd cp
        ((fix go (ys : list sidebar_item) : Forall P ys :=
            match ys with
            | [] => Forall_nil P
            | y :: ys' => Forall_cons y (sidebar_item_rect' P H y) (go ys')
            end) xs)
  end.

(** The props a sidebar item component receives besides [item]: the active
    path, the click callback (identified by a handle) and the [tabIndex] that
    a parent category forwards through [...props]. *)
Record sidebar_props := {
  activePath : string;
  onItemClick : option nat;
  tabIndex : option Z
}.

(** ** clsx

    [clsx] keeps truthy string arguments and the keys of an object argument
    whose value is truthy, in order.  The class list is kept as a list of
    tokens. *)
Inductive clsx_arg :=
| ClsStr (s : option string)
| ClsObj (entries : list (string * bool)).

Definition clsx (args : list clsx_arg) : list string :=
  flat_map (fun a =>
    match a with
    | ClsStr (Some s) => if String.eqb s "" then [] else [s]
    | ClsStr None => []
    | ClsObj es => map fst (filter snd es)
    end) args.

(** ** JS [String.prototype.split] on a one-character separator *)
Fixpoint js_split (sep : ascii) (s : string) : list string :=
  match s with
  | EmptyString => [""]
  | String a rest =>
      let parts := js_split sep rest in
      if Ascii.eqb a sep then "" :: parts
      else match parts with
           | p :: ps => String a p :: ps
           | [] => [String a ""]
           end
  end.

(** [x.split("/")[2]]: [undefined] (= [None]) when there is no such part. *)
Definition split_slash_2 (s : string) : option string :=
  nth_error (js_split "/"%char s) 2.

(** Loose equality [==] between two values that are each a string or
    [undefined]. *)
Definition js_loose_eq_opt (a b : option string) : bool :=
  match a, b with
  | Some x, Some y => String.eqb x y
  | None, None => true
  | _, _ => false
  end.

(** ** The components

    The collaborators imported from the framework are section variables:
    [isSamePath] comes from @docusaurus/theme-common, [isInternalUrl] and
    [useBaseUrl] from
    @docusaurus, the version list from [siteConfig.customFields.api_versions],
    the viewport class from [useWindowSize] and [window.location.pathname]
    from the browser ([None] when [typeof window === "undefined"]). *)

Inductive window_size := WSMobile | WSDesktop | WSSsr.

(** A version descriptor of [siteConfig.customFields.api_versions]. *)
Record api_version := {
  version : string;
  ver_label : string;
  to : string
}.

(** A React element returned by the dispatcher: the component and its props. *)
Inductive element :=
| ENull
| EDocSidebarItemCategory (item : sidebar_item) (props : sidebar_props)
| EDocSidebarVersionDropdown (item : sidebar_item) (props : sidebar_props)
| EDocSidebarItemLink (item : sidebar_item) (props : sidebar_props).

Section Sidebar.

Variable isSamePath : string -> string -> bool.
Variable isInternalUrl : string -> bool.
Variable useBaseUrl : string -> string.
Variable api_versions : list api_version.
Variable windowSize : window_size.
Variable window_pathname : option string.

(** [isActiveSidebarItem] (index.js lines 23-35). *)
Fixpoint isActiveSidebarItem (item : sidebar_item) (activePath : string) : bool :=
  match item with
  | SidebarItem type _ href items _ _ _ =>
      if String.eqb type "link" then isSamePath href activePath
      else if String.eqb type "category" then
        existsb (fun subItem => isActiveSidebarItem subItem activePath) items
      else false
  end.

(** [DocSidebarItem] (lines 55-70).  The [link] case falls through to
    [default] when the [customProps] test fails. *)
Definition DocSidebarItem (item : sidebar_item) (props : sidebar_props) : element :=
  if String.eqb (item_type item) "category" then
    if Nat.eqb (length (item_items item)) 0 then ENull
    else EDocSidebarItemCategory item props
  else if String.eqb (item_type item) "link" then
    if custom_props_strict_eq_string (item_customProps item) "versioned"
    then EDocSidebarVersionDropdown item props
    else EDocSidebarItemLink item props
  else EDocSidebarItemLink item props.

(** [DocSidebarItems] (lines 39-54): one element per item, in order, with the
    shared props. *)
Definition DocSidebarItems (items : list sidebar_item) (props : sidebar_props)
  : list element :=
  map (fun item => DocSidebarItem item props) items.

(** *** DocSidebarItemLink (lines 223-256) *)

(** [var method = "noop"; if (customProps) { method = customProps.method; }] *)
Definition link_method (customProps : custom_props) : option string :=
  if custom_props_truthy customProps then custom_props_method customProps
  else Some "noop".

(** The attributes spread onto [Link] when [isInternalUrl(href)]:
    [isNavLink], [exact] and [onClick]. *)
Record nav_wiring := {
  isNavLink : bool;
  exact : bool;
  nav_onClick : option nat
}.

Record link_view := {
  li_className : string;
  li_key : string;
  link_className : list string;
  link_to_attr : string;
  link_nav : option nav_wiring;
  link_tabIndex : option Z;
  link_text : string;
  link_external_icon : bool
}.

Definition DocSidebarItemLink (item : sidebar_item) (props : sidebar_props)
  : link_view :=
  let href := item_href item in
  let label := item_label item in
  let isActive := isActiveSidebarItem item (activePath props) in
  let method := link_method (item_customProps item) in
  {| li_className := "menu__list-item";
     li_key := label;
     link_className :=
       clsx [ClsStr (Some "menu__link"); ClsStr method;
             ClsObj [("menu__link--active", isActive)]];
     link_to_attr := href;
     link_nav :=
       if isInternalUrl href
       then Some {| isNavLink := true; exact := true;
                    nav_onClick := onItemClick props |}
       else None;
     link_tabIndex := tabIndex props;
     link_text := label;
     link_external_icon := negb (isInternalUrl href) |}.

(** *** DocSidebarVersionDropdown (lines 72-151) *)

Record dropdown_entry := {
  entry_className : string;
  entry_to : string;
  entry_label : string
}.

Record version_button := {
  button_className : string;
  button_to : string;
  button_label : string
}.

Inductive dropdown_view :=
| DesktopNavbar (current_label : string) (entries : list dropdown_entry)
| MobileButtonRow (buttons : list version_button).

Definition mobile_button_base : string :=
  "button button--outline button--secondary button--md ".
Definition mobile_button_active_classes : string :=
  "button--active--tab shadow--lw".

Definition mobile_button (Ver : api_version) : version_button :=
  {| button_className :=
       mobile_button_base ++
       (if (match window_pathname with
            | Some pathname =>
                js_loose_eq_opt (split_slash_2 pathname)
                                (split_slash_2 (useBaseUrl (to Ver)))
            | None => false
            end)
        then mobile_button_active_classes else "");
     button_to := useBaseUrl (to Ver);
     button_label := ver_label Ver |}.

Definition desktop_entry (item : sidebar_item) (Ver : api_version) : dropdown_entry :=
  {| entry_className :=
       "dropdown__link " ++
       (if String.eqb (item_label item) (version Ver)
        then "dropdown__link--active" else "");
     entry_to := to Ver;
     entry_label := ver_label Ver |}.

Definition DocSidebarVersionDropdown (item : sidebar_item) : dropdown_view :=
  match windowSize with
  | WSMobile => MobileButtonRow (map mobile_button api_versions)
  | _ => DesktopNavbar (item_label item) (map (desktop_entry item) api_versions)
  end.

(** A mobile button is marked active when its class list carries the
    active-tab classes. *)
Definition button_marked_active (b : version_button) : bool :=
  String.eqb (button_className b)
             (mobile_button_base ++ mobile_button_active_classes).

(** *** DocSidebarItemCategory (lines 153-221) *)

(** The [initialState] thunk passed to [useCollapsible] (lines 171-177). *)
Definition category_initialState (item : sidebar_item) (isActive : bool) : bool :=
  if negb (item_collapsible item) then false
  else if isActive then false else item_collapsed item.

(** The view state of one mounted category: the [collapsed] state held by
    [useCollapsible], the ref behind [usePrevious(isActive)] ([None] is its
    initial [undefined]) and the [activePath] prop of the last render. *)
Record category_state := {
  cs_collapsed : bool;
  cs_prevActive : option bool;
  cs_activePath : string
}.

(** [!wasActive], where [wasActive] may still be [undefined]. *)
Definition js_not_opt_bool (b : option bool) : bool :=
  match b with None => true | Some b' => negb b' end.

(** The effect body of [useAutoExpandActiveCategory] (lines 156-162): the
    argument of [setCollapsed] when it is called.  The effect is re-run only
    when [isActive], [wasActive] or [collapsed] changed; its body depends on
    nothing else, so running it after every commit gives the same updates. *)
Definition autoExpandEffect (isActive : bool) (wasActive : option bool)
  (collapsed : bool) : option bool :=
  let justBecameActive := isActive && js_not_opt_bool wasActive in
  if justBecameActive && collapsed then Some false else None.

(** One render and commit.  The render reads [wasActive] from the ref; after
    the commit the effects run in the order they were declared: first the one
    of [usePrevious], which stores [isActive] in the ref, then the auto-expand
    effect.  The boolean tells whether a state update was scheduled, which
    makes React render again. *)
Definition category_commit (item : sidebar_item) (s : category_state)
  : category_state * bool :=
  let isActive := isActiveSidebarItem item (cs_activePath s) in
  let wasActive := cs_prevActive s in
  match autoExpandEffect isActive wasActive (cs_collapsed s) with
  | Some v => ({| cs_collapsed := v; cs_prevActive := Some isActive;
                  cs_activePath := cs_activePath s |}, true)
  | None => ({| cs_collapsed := cs_collapsed s; cs_prevActive := Some isActive;
                cs_activePath := cs_activePath s |}, false)
  end.

(** React's bound on nested updates ("Maximum update depth exceeded"). *)
Definition react_update_limit : nat := 50.

(** Render until no effect schedules an update; [None] when React would give
    up. *)
Fixpoint category_render (fuel : nat) (item : sidebar_item) (s : category_state)
  : option category_state :=
  match fuel with
  | O => None
  | S fuel' =>
      let (s', again) := category_commit item s in
      if again then category_render fuel' item s' else Some s'
  end.

(** Mounting: [useState] runs the [initialState] thunk, the ref starts
    [undefined], then the first render and its effects. *)
Definition category_mount (item : sidebar_item) (activePath : string)
  : option category_state :=
  category_render react_update_limit item
    {| cs_collapsed :=
         category_initialState item (isActiveSidebarItem item activePath);
       cs_prevActive := None;
       cs_activePath := activePath |}.

(** What can happen to a mounted category: a new [activePath] prop (a
    navigation, or any re-render of the parent), or a click on the header. *)
Inductive category_event :=
| CatNavigate (activePath : string)
| CatHeaderClick.

(** The header's [onClick] exists only when [collapsible]; it calls
    [toggleCollapsed] of [useCollapsible], i.e. [setCollapsed(c => !c)], which
    renders the category again. *)
Definition category_step (item : sidebar_item) (ev : category_event)
  (s : category_state) : option category_state :=
  match ev with
  | CatNavigate p =>
      category_render react_update_limit item
        {| cs_collapsed := cs_collapsed s; cs_prevActive := cs_prevActive s;
           cs_activePath := p |}
  | CatHeaderClick =>
      if item_collapsible item then
        category_render react_update_limit item
          {| cs_collapsed := negb (cs_collapsed s);
             cs_prevActive := cs_prevActive s;
             cs_activePath := cs_activePath s |}
      else Some s
  end.

Inductive category_reachable (item : sidebar_item) : category_state -> Prop :=
| category_reachable_mount p s :
    category_mount item p = Some s -> category_reachable item s
| category_reachable_step s ev s' :
    category_reachable item s -> category_step item ev s = Some s' ->
    category_reachable item s'.

(** The local class name [styles.menuLinkText] of styles.module.css. *)
Definition styles_menuLinkText : string := "menuLinkText".

(** The markup of [DocSidebarItemCategory] for a given [collapsed] state. *)
Record category_view := {
  cv_li_className : list string;
  cv_a_className : list string;
  cv_a_has_onClick : bool;
  cv_a_href : option string;
  cv_a_tabIndex : option Z;
  cv_a_text : string;
  cv_list_collapsed : bool;
  cv_children : list element
}.

Definition DocSidebarItemCategory (item : sidebar_item) (props : sidebar_props)
  (collapsed : bool) : category_view :=
  let collapsible := item_collapsible item in
  let isActive := isActiveSidebarItem item (activePath props) in
  {| cv_li_className :=
       clsx [ClsStr (Some "menu__list-item");
             ClsObj [("menu__list-item--collapsed", collapsed)]];
     cv_a_className :=
       clsx [ClsStr (Some "menu__link");
             ClsObj [("menu__link--sublist", collapsible);
                     ("menu__link--active", collapsible && isActive);
                     (styles_menuLinkText, negb collapsible)]];
     cv_a_has_onClick := collapsible;
     cv_a_href := if collapsible then Some "#" else None;
     cv_a_tabIndex := tabIndex props;
     cv_a_text := item_label item;
     cv_list_collapsed := collapsed;
     cv_children :=
       DocSidebarItems (item_items item)
         {| activePath := activePath props; onItemClick := onItemClick props;
            tabIndex := Some (if collapsed then (-1)%Z else 0%Z) |} |}.

End Sidebar.

(** ** Reading of the matcher's contract

    [link_under c l]: [l] is a link found by descending from the category [c]
    through its items, entering only categories on the way. *)
Inductive link_under : sidebar_item -> sidebar_item -> Prop :=
| link_under_child t lbl h xs c cd cp x :
    t = "category" -> In x xs -> item_type x = "link" ->
    link_under (SidebarItem t lbl h xs c cd cp) x
| link_under_deeper t lbl h xs c cd cp y x :
    t = "category" -> In y xs -> link_under y x ->
    link_under (SidebarItem t lbl h xs c cd cp) x.

(** A collapsible category, collapsed by default, holding one link. *)
Definition guides_category : sidebar_item :=
  SidebarItem "category" "Guides" ""
    [SidebarItem "link" "A" "/docs/a" [] false false CPUndefined]
    true true CPUndefined.

(** A desktop dropdown entry is marked active when it carries the active
    link class. *)
Definition entry_marked_active (e : dropdown_entry) : bool :=
  String.eqb (entry_className e) "dropdown__link dropdown__link--active".

(** The props an element passes to its component ([None] for [null]). *)
Definition element_props (e : element) : option sidebar_props :=
  match e with
  | ENull => None
  | EDocSidebarItemCategory _ p | EDocSidebarVersionDropdown _ p
  | EDocSidebarItemLink _ p => Some p
  end.

Definition element_is_null (e : element) : bool :=
  match e with ENull => true | _ => false end.

(** An item the dispatcher drops: a category without children. *)
Definition empty_category (item : sidebar_item) : bool :=
  String.eqb (item_type item) "category" && Nat.eqb (length (item_items item)) 0.

(** The method tokens [clsx] keeps for the link's [method] class. *)
Definition method_tokens (cp : custom_props) : list string :=
  match cp with
  | CPUndefined | CPNull => ["noop"]
  | CPString s => if String.eqb s "" then ["noop"] else []
  | CPObject (Some m) => if String.eqb m "" then [] else [m]
  | CPObject None => []
  end.

(** A non-collapsible category, holding one link. *)
Definition plain_category : sidebar_item :=
  SidebarItem "category" "Reference" ""
    [SidebarItem "link" "B" "/docs/b" [] false false CPUndefined]
    false true CPUndefined.

Definition ref_item : sidebar_item :=
  SidebarItem "ref" "Intro" "/docs/intro"
    [SidebarItem "link" "A" "/docs/intro" [] false false CPUndefined]
    false false CPUndefined.

Definition sample_props : sidebar_props :=
  {| activePath := "/docs/a"; onItemClick := Some 1; tabIndex := None |}.

Definition sample_versions : list api_version :=
  [{| version := "v1"; ver_label := "v1.0"; to := "/" |};
   {| version := "v2"; ver_label := "v2.0"; to := "/docs/v2" |}].

(** ** Properties *)

Lemma link_under_category c l : link_under c l -> item_type c = "category".
Proof. intros H; destruct H; simpl; assumption. Qed.

Lemma existsb_exists_iff {A} (f : A -> bool) xs :
  existsb f xs = true <-> exists x, In x xs /\ f x = true.
Proof. apply existsb_exists. Qed.

(** C1 as the spec states it fails: a link whose [customProps] is the object
    [{method: "versioned"}] goes to the ordinary Link renderer. *)
Example versioned_method_goes_to_link :
  let item := SidebarItem "link" "v1.0" "/docs/v1" [] false false
                (CPObject (Some "versioned")) in
  let props := {| activePath := "/"; onItemClick := None; tabIndex := None |} in
  DocSidebarItem item props = EDocSidebarItemLink item props.
Proof. reflexivity. Qed.

(** C1 (amended): a [link] item whose [customProps] is the string
    "versioned" is delegated to the VersionDropdown component; a [link] item
    with any other [customProps] (an object with [method: "versioned"]
    included) is delegated to the ordinary Link renderer. *)
Theorem DocSidebarItem_versioned_string_dropdown (item : sidebar_item)
  (props : sidebar_props) :
  item_type item = "link" ->
  DocSidebarItem item props =
    (if custom_props_strict_eq_string (item_customProps item) "versioned"
     then EDocSidebarVersionDropdown item props
     else EDocSidebarItemLink item props).
Proof.
  intros Ht. unfold DocSidebarItem. rewrite Ht. reflexivity.
Qed.

Lemma DocSidebarItem_versioned_string_dropdown_witness :
  item_type (SidebarItem "link" "v1.0" "/docs/v1" [] false false
               (CPString "versioned")) = "link" /\
  DocSidebarItem (SidebarItem "link" "v1.0" "/docs/v1" [] false false
                    (CPString "versioned"))
                 {| activePath := "/"; onItemClick := None; tabIndex := None |} =
  EDocSidebarVersionDropdown
    (SidebarItem "link" "v1.0" "/docs/v1" [] false false (CPString "versioned"))
    {| activePath := "/"; onItemClick := None; tabIndex := None |}.
Proof.
  split; [reflexivity|].
  rewrite DocSidebarItem_versioned_string_dropdown by reflexivity.
  reflexivity.
Defined.

(** C6: a [category] item with no children renders nothing, whatever its
    other fields and the props. *)
Theorem DocSidebarItem_empty_category_null (item : sidebar_item)
  (props : sidebar_props) :
  item_type item = "category" -> item_items item = [] ->
  DocSidebarItem item props = ENull.
Proof.
  intros Ht Hi. unfold DocSidebarItem. rewrite Ht, Hi. reflexivity.
Qed.

Lemma DocSidebarItem_empty_category_null_witness :
  DocSidebarItem (SidebarItem "category" "Guides" "" [] true false CPUndefined)
    {| activePath := "/docs/a"; onItemClick := None; tabIndex := None |} = ENull.
Proof.
  apply DocSidebarItem_empty_category_null; reflexivity.
Defined.

(** C8: an item whose [type] is neither "category" nor "link" is rendered by
    the default Link renderer. *)
Theorem DocSidebarItem_unknown_type_link (item : sidebar_item)
  (props : sidebar_props) :
  item_type item <> "category" -> item_type item <> "link" ->
  DocSidebarItem item props = EDocSidebarItemLink item props.
Proof.
  intros Hc Hl. unfold DocSidebarItem.
  apply String.eqb_neq in Hc, Hl. rewrite Hc, Hl. reflexivity.
Qed.

Lemma DocSidebarItem_unknown_type_link_witness :
  DocSidebarItem (SidebarItem "ref" "Intro" "/docs/intro" [] false false CPUndefined)
    {| activePath := "/"; onItemClick := None; tabIndex := None |} =
  EDocSidebarItemLink
    (SidebarItem "ref" "Intro" "/docs/intro" [] false false CPUndefined)
    {| activePath := "/"; onItemClick := None; tabIndex := None |}.
Proof.
  apply DocSidebarItem_unknown_type_link; discriminate.
Defined.

Section Matching.

Variable isSamePath : string -> string -> bool.
Variable isInternalUrl : string -> bool.

(** C7: with [customProps] missing ([undefined]) the Link renderer uses
    "noop" as the method class of the link. *)
Theorem DocSidebarItemLink_noop_method (item : sidebar_item)
  (props : sidebar_props) :
  item_customProps item = CPUndefined ->
  link_className (DocSidebarItemLink isSamePath isInternalUrl item props) =
    "menu__link" :: "noop" ::
    (if isActiveSidebarItem isSamePath item (activePath props)
     then ["menu__link--active"] else []).
Proof.
  intros Hcp. unfold DocSidebarItemLink, link_method. simpl.
  rewrite Hcp. simpl.
  destruct (isActiveSidebarItem isSamePath item (activePath props)); reflexivity.
Qed.

(** C10: a non-collapsible category header never gets the active class. *)
Theorem DocSidebarItemCategory_not_collapsible_no_active (item : sidebar_item)
  (props : sidebar_props) (collapsed : bool) :
  item_collapsible item = false ->
  ~ In "menu__link--active"
      (cv_a_className (DocSidebarItemCategory isSamePath item props collapsed)).
Proof.
  intros Hc. unfold DocSidebarItemCategory. rewrite Hc. simpl.
  intros [H | [H | []]]; discriminate H.
Qed.

End Matching.

Lemma DocSidebarItemLink_noop_method_witness :
  link_className
    (DocSidebarItemLink String.eqb (fun _ => true)
       (SidebarItem "link" "Intro" "/docs/intro" [] false false CPUndefined)
       {| activePath := "/docs/intro"; onItemClick := Some 0;
          tabIndex := None |}) =
  ["menu__link"; "noop"; "menu__link--active"].
Proof.
  rewrite DocSidebarItemLink_noop_method by reflexivity. reflexivity.
Defined.

Lemma DocSidebarItemCategory_not_collapsible_no_active_witness :
  isActiveSidebarItem String.eqb
    (SidebarItem "category" "Guides" "" 
       [SidebarItem "link" "A" "/docs/a" [] false false CPUndefined]
       false true CPUndefined) "/docs/a" = true /\
  ~ In "menu__link--active"
      (cv_a_className
         (DocSidebarItemCategory String.eqb
            (SidebarItem "category" "Guides" ""
               [SidebarItem "link" "A" "/docs/a" [] false false CPUndefined]
               false true CPUndefined)
            {| activePath := "/docs/a"; onItemClick := None; tabIndex := None |}
            false)).
Proof.
  split; [reflexivity|].
  apply DocSidebarItemCategory_not_collapsible_no_active. reflexivity.
Defined.

Section ActiveMatcher.

Variable isSamePath : string -> string -> bool.

(** C2: on a category, [isActiveSidebarItem] holds exactly when the active
    path matches ([isSamePath]) the [href] of a link reached by descending
    through the category's items; on a link it is the match of its own
    [href]. *)
Theorem isActiveSidebarItem_reachable_link (item : sidebar_item)
  (activePath : string) :
  (item_type item = "category" ->
   (isActiveSidebarItem isSamePath item activePath = true <->
    exists l, link_under item l /\ isSamePath (item_href l) activePath = true)) /\
  (item_type item = "link" ->
   isActiveSidebarItem isSamePath item activePath =
     isSamePath (item_href item) activePath).
Proof.
  induction item as [t lbl h xs c cd cp IH] using sidebar_item_rect'.
  simpl. split.
  - intros ->. simpl. rewrite existsb_exists_iff. split.
    + intros [y [Hin Hy]].
      rewrite Forall_forall in IH. destruct (IH y Hin) as [IHc IHl].
      destruct y as [t' lbl' h' ys c' cd' cp'] eqn:Ey.
      simpl in Hy, IHc, IHl.
      destruct (String.eqb_spec t' "link") as [Hl | Hl].
      * exists y. subst y. split; [|exact Hy].
        apply link_under_child; auto.
      * destruct (String.eqb_spec t' "category") as [Hc | Hc]; [|discriminate].
        destruct (IHc Hc) as [Hdown _].
        destruct (Hdown Hy) as [l [Hlu Hm]].
        exists l. split; [|exact Hm].
        eapply link_under_deeper; [reflexivity | exact Hin | exact Hlu].
    + intros [l [Hlu Hm]].
      inversion Hlu as [t0 l0 h0 xs0 c0 cd0 cp0 x Ht Hin Hx E1 E2
                       | t0 l0 h0 xs0 c0 cd0 cp0 y x Ht Hin Hyx E1 E2]; subst.
      * exists l. split; [exact Hin|].
        rewrite Forall_forall in IH. destruct (IH l Hin) as [_ IHl].
        rewrite IHl by exact Hx. exact Hm.
      * exists y. split; [exact Hin|].
        rewrite Forall_forall in IH. destruct (IH y Hin) as [IHc _].
        apply IHc; [eapply link_under_category; eassumption|].
        exists l. split; assumption.
  - intros ->. reflexivity.
Qed.

End ActiveMatcher.

Lemma isActiveSidebarItem_reachable_link_witness :
  item_type (SidebarItem "category" "Guides" ""
               [SidebarItem "category" "Deep" ""
                  [SidebarItem "link" "A" "/docs/a" [] false false CPUndefined]
                  true true CPUndefined]
               true true CPUndefined) = "category" /\
  (isActiveSidebarItem String.eqb
     (SidebarItem "category" "Guides" ""
        [SidebarItem "category" "Deep" ""
           [SidebarItem "link" "A" "/docs/a" [] false false CPUndefined]
           true true CPUndefined]
        true true CPUndefined) "/docs/a" = true <->
   exists l, link_under
     (SidebarItem "category" "Guides" ""
        [SidebarItem "category" "Deep" ""
           [SidebarItem "link" "A" "/docs/a" [] false false CPUndefined]
           true true CPUndefined]
        true true CPUndefined) l /\
     String.eqb (item_href l) "/docs/a" = true).
Proof.
  split; [reflexivity|].
  apply (isActiveSidebarItem_reachable_link String.eqb). reflexivity.
Defined.

Section CategoryState.

Variable isSamePath : string -> string -> bool.

Local Abbreviation isActive item p := (isActiveSidebarItem isSamePath item p).

(** With two rounds of fuel a render always settles: an auto-expansion
    schedules one more render, in which [wasActive] is already [true]. *)
Lemma category_render_settle (item : sidebar_item) (s : category_state)
  (fuel : nat) :
  category_render isSamePath (S (S fuel)) item s =
  Some {| cs_collapsed :=
            cs_collapsed s &&
            negb (isActive item (cs_activePath s) &&
                  js_not_opt_bool (cs_prevActive s));
          cs_prevActive := Some (isActive item (cs_activePath s));
          cs_activePath := cs_activePath s |}.
Proof.
  destruct s as [cl pa ap]. simpl.
  unfold category_commit, autoExpandEffect. simpl.
  destruct (isActive item ap) eqn:E, pa as [[|]|], cl; simpl; rewrite ?E;
    reflexivity.
Qed.

Lemma category_reachable_prevActive (item : sidebar_item) (s : category_state) :
  category_reachable isSamePath item s ->
  cs_prevActive s = Some (isActive item (cs_activePath s)).
Proof.
  induction 1 as [p s Hm | s ev s' Hr IH Hs].
  - unfold category_mount, react_update_limit in Hm.
    rewrite category_render_settle in Hm. injection Hm as <-. reflexivity.
  - destruct ev as [p|]; unfold category_step in Hs; cbv beta iota in Hs.
    + unfold react_update_limit in Hs.
      rewrite category_render_settle in Hs. injection Hs as <-. reflexivity.
    + destruct (item_collapsible item).
      * unfold react_update_limit in Hs.
        rewrite category_render_settle in Hs. injection Hs as <-. reflexivity.
      * injection Hs as <-. exact IH.
Qed.

(** A navigation from a reachable state: the category is expanded when the
    matcher rises from [false] to [true] while collapsed; otherwise its
    [collapsed] state is kept. *)
Lemma category_navigate_collapsed (item : sidebar_item) (s : category_state)
  (p : string) :
  category_reachable isSamePath item s ->
  exists s', category_step isSamePath item (CatNavigate p) s = Some s' /\
    cs_collapsed s' =
      cs_collapsed s &&
      negb (isActive item p && negb (isActive item (cs_activePath s))) /\
    cs_activePath s' = p.
Proof.
  intros Hr. apply category_reachable_prevActive in Hr.
  unfold category_step, react_update_limit; cbv beta iota.
  rewrite category_render_settle.
  eexists. split; [reflexivity|]. simpl. rewrite Hr. split; reflexivity.
Qed.

(** C3: take a mounted category in any state it can reach.  If it is
    collapsed and a navigation makes the matcher rise from [false] to [true],
    it becomes expanded with no click.  A navigation that is not such a rising
    edge never changes [collapsed]: in particular a fall from [true] to
    [false] does not collapse it, and staying active does not expand it again
    (so a category collapsed by the user while active stays collapsed). *)
Theorem category_auto_expand_rising_edge (item : sidebar_item)
  (s : category_state) (p : string) :
  category_reachable isSamePath item s ->
  (isActive item (cs_activePath s) = false -> isActive item p = true ->
   cs_collapsed s = true ->
   exists s', category_step isSamePath item (CatNavigate p) s = Some s' /\
     cs_collapsed s' = false) /\
  (~ (isActive item (cs_activePath s) = false /\ isActive item p = true) ->
   exists s', category_step isSamePath item (CatNavigate p) s = Some s' /\
     cs_collapsed s' = cs_collapsed s).
Proof.
  intros Hr.
  destruct (category_navigate_collapsed item s p Hr) as [s' [Hs [Hc _]]].
  split.
  - intros Hold Hnew Hcol. exists s'. split; [exact Hs|].
    rewrite Hc, Hold, Hnew, Hcol. reflexivity.
  - intros Hedge. exists s'. split; [exact Hs|].
    rewrite Hc.
    destruct (isActive item (cs_activePath s)), (isActive item p); simpl;
      try apply andb_true_r.
    exfalso. apply Hedge. split; reflexivity.
Qed.

(** C4: a click on the header of a mounted category flips [collapsed] once
    when the category is collapsible, and leaves it unchanged otherwise. *)
Theorem category_header_click_toggle (item : sidebar_item) (s : category_state) :
  category_reachable isSamePath item s ->
  exists s', category_step isSamePath item CatHeaderClick s = Some s' /\
    cs_collapsed s' =
      (if item_collapsible item then negb (cs_collapsed s) else cs_collapsed s).
Proof.
  intros Hr. apply category_reachable_prevActive in Hr.
  unfold category_step. destruct (item_collapsible item).
  - unfold react_update_limit. rewrite category_render_settle.
    eexists. split; [reflexivity|]. simpl. rewrite Hr.
    destruct (isActive item (cs_activePath s)); simpl; apply andb_true_r.
  - exists s. split; reflexivity.
Qed.

(** C5: after mounting, a non-collapsible category is expanded; a collapsible
    one is expanded when active and otherwise takes the item's [collapsed]
    flag.  This is the [initialState] thunk, and the first run of the
    auto-expand effect does not change it. *)
Theorem category_mount_initial_state (item : sidebar_item) (p : string) :
  exists s, category_mount isSamePath item p = Some s /\
    cs_collapsed s =
      (if negb (item_collapsible item) then false
       else if isActive item p then false else item_collapsed item).
Proof.
  unfold category_mount, react_update_limit. rewrite category_render_settle.
  eexists. split; [reflexivity|]. simpl.
  unfold category_initialState.
  destruct (item_collapsible item), (isActive item p), (item_collapsed item);
    reflexivity.
Qed.

End CategoryState.


Lemma category_auto_expand_rising_edge_witness :
  category_reachable String.eqb guides_category
    {| cs_collapsed := true; cs_prevActive := Some false;
       cs_activePath := "/docs/b" |} /\
  exists s', category_step String.eqb guides_category (CatNavigate "/docs/a")
    {| cs_collapsed := true; cs_prevActive := Some false;
       cs_activePath := "/docs/b" |} = Some s' /\ cs_collapsed s' = false.
Proof.
  assert (Hr : category_reachable String.eqb guides_category
    {| cs_collapsed := true; cs_prevActive := Some false;
       cs_activePath := "/docs/b" |}).
  { apply (category_reachable_mount _ _ "/docs/b"). reflexivity. }
  split; [exact Hr|].
  apply (proj1 (category_auto_expand_rising_edge String.eqb guides_category _
                  "/docs/a" Hr)); reflexivity.
Defined.

Lemma category_header_click_toggle_witness :
  category_reachable String.eqb guides_category
    {| cs_collapsed := false; cs_prevActive := Some true;
       cs_activePath := "/docs/a" |} /\
  exists s', category_step String.eqb guides_category CatHeaderClick
    {| cs_collapsed := false; cs_prevActive := Some true;
       cs_activePath := "/docs/a" |} = Some s' /\ cs_collapsed s' = true.
Proof.
  assert (Hr : category_reachable String.eqb guides_category
    {| cs_collapsed := false; cs_prevActive := Some true;
       cs_activePath := "/docs/a" |}).
  { apply (category_reachable_mount _ _ "/docs/a"). reflexivity. }
  split; [exact Hr|].
  exact (category_header_click_toggle String.eqb guides_category _ Hr).
Defined.

Lemma js_loose_eq_opt_iff (a b : option string) :
  js_loose_eq_opt a b = true <-> a = b.
Proof.
  destruct a as [x|], b as [y|]; simpl; split; intros H; try discriminate;
    try reflexivity.
  - apply String.eqb_eq in H. subst. reflexivity.
  - injection H as ->. apply String.eqb_refl.
Qed.

(** [split("/")] cuts at the first separator. *)
Lemma js_split_app_sep (s1 rest : string) :
  (forall c, In c (list_ascii_of_string s1) -> c <> "/"%char) ->
  js_split "/"%char (s1 ++ String "/"%char rest) = s1 :: js_split "/"%char rest.
Proof.
  induction s1 as [|a s1 IH]; intros Hno; [reflexivity|].
  simpl. rewrite IH by (intros c Hc; apply Hno; right; exact Hc).
  destruct (Ascii.eqb_spec a "/"%char) as [E|E]; [|reflexivity].
  exfalso. apply (Hno a); [left; reflexivity | exact E].
Qed.

(** On a path "/s1/s2/rest" (no "/" inside [s1], [s2]) the compared part
    [split("/")[2]] is the second path segment [s2]. *)
Lemma split_slash_2_second_segment (s1 s2 rest : string) :
  (forall c, In c (list_ascii_of_string s1) -> c <> "/"%char) ->
  (forall c, In c (list_ascii_of_string s2) -> c <> "/"%char) ->
  split_slash_2 (String "/"%char (s1 ++ String "/"%char (s2 ++ String "/"%char rest)))
  = Some s2.
Proof.
  intros H1 H2. unfold split_slash_2. simpl.
  rewrite js_split_app_sep by exact H1.
  rewrite js_split_app_sep by exact H2. reflexivity.
Qed.

Lemma button_marked_active_iff (c : bool) (to' lbl : string) :
  button_marked_active
    {| button_className := mobile_button_base ++
         (if c then mobile_button_active_classes else "");
       button_to := to'; button_label := lbl |} = true <-> c = true.
Proof.
  destruct c; split; intros H; try reflexivity; discriminate.
Qed.

(** C9: in the mobile branch one button is rendered per version descriptor,
    in order, linking to the base-URL-resolved target; a button is marked
    active exactly when [pathname.split("/")[2]] of the current location
    equals [split("/")[2]] of that resolved target, i.e. (see
    [split_slash_2_second_segment]) their second path segments agree. *)
Theorem mobile_version_buttons_active (useBaseUrl : string -> string)
  (api_versions : list api_version) (pathname : string) (item : sidebar_item) :
  exists buttons,
    DocSidebarVersionDropdown useBaseUrl api_versions WSMobile (Some pathname) item
      = MobileButtonRow buttons /\
    Forall2 (fun Ver b =>
      button_to b = useBaseUrl (to Ver) /\ button_label b = ver_label Ver /\
      (button_marked_active b = true <->
       split_slash_2 pathname = split_slash_2 (useBaseUrl (to Ver))))
      api_versions buttons.
Proof.
  eexists. split; [reflexivity|].
  induction api_versions as [|Ver vs IH]; simpl; constructor; [|exact IH].
  split; [reflexivity|]. split; [reflexivity|].
  unfold mobile_button. rewrite button_marked_active_iff.
  apply js_loose_eq_opt_iff.
Qed.

(** ** Further properties of the component *)

(** Every element the dispatcher returns is [null] or passes on the props. *)
Lemma DocSidebarItem_keeps_props (i : sidebar_item) (props : sidebar_props) :
  DocSidebarItem i props = ENull \/
  element_props (DocSidebarItem i props) = Some props.
Proof.
  unfold DocSidebarItem.
  destruct (String.eqb (item_type i) "category");
    [destruct (Nat.eqb (length (item_items i)) 0)|
     destruct (String.eqb (item_type i) "link");
     [destruct (custom_props_strict_eq_string (item_customProps i) "versioned")|]];
    auto.
Qed.

Lemma DocSidebarItems_keep_props (items : list sidebar_item) (props : sidebar_props) :
  Forall (fun e => e = ENull \/ element_props e = Some props)
    (DocSidebarItems items props).
Proof.
  apply Forall_forall. unfold DocSidebarItems. intros e Hin.
  apply in_map_iff in Hin. destruct Hin as [i [<- _]].
  apply DocSidebarItem_keeps_props.
Qed.

Section MoreMatching.

Variable isSamePath : string -> string -> bool.
Variable isInternalUrl : string -> bool.




(** X4: the class list of a rendered link is "menu__link", then the method
    token ("noop" when [customProps] is falsy, [customProps.method] when it
    is an object with a non-empty method, nothing for a non-empty string or
    an object without method), then "menu__link--active" when active. *)
Theorem DocSidebarItemLink_classes (item : sidebar_item) (props : sidebar_props) :
  link_className (DocSidebarItemLink isSamePath isInternalUrl item props) =
    "menu__link" :: method_tokens (item_customProps item) ++
    (if isActiveSidebarItem isSamePath item (activePath props)
     then ["menu__link--active"] else []).
Proof.
  unfold DocSidebarItemLink, link_method, method_tokens. simpl.
  destruct (item_customProps item) as [| |s|[m|]]; simpl;
    try (destruct (String.eqb s "") eqn:E; simpl);
    try (destruct (String.eqb m "") eqn:E; simpl);
    try rewrite E; simpl;
    destruct (isActiveSidebarItem isSamePath item (activePath props));
    reflexivity.
Qed.

(** X5: a link item carries the active class exactly when its [href] is the
    same path as the active path (unless its own method token is that class
    name). *)
Theorem DocSidebarItemLink_active_iff_same_path (item : sidebar_item)
  (props : sidebar_props) :
  item_type item = "link" ->
  ~ In "menu__link--active" (method_tokens (item_customProps item)) ->
  (In "menu__link--active"
     (link_className (DocSidebarItemLink isSamePath isInternalUrl item props))
   <-> isSamePath (item_href item) (activePath props) = true).
Proof.
  intros Ht Hm. rewrite DocSidebarItemLink_classes.
  destruct item as [t lbl h xs c cd cp]; simpl in Ht |- *. subst t. simpl.
  destruct (isSamePath h (activePath props)); simpl; split; intros H.
  - reflexivity.
  - right. apply in_or_app. right. left. reflexivity.
  - destruct H as [H|H]; [discriminate|].
    apply in_app_or in H. destruct H as [H|[]]. contradiction.
  - discriminate.
Qed.


End MoreMatching.

Section MoreCategory.

Variable isSamePath : string -> string -> bool.



(** X9: the list item carries "menu__list-item--collapsed" exactly when the
    category is collapsed, and every child element is rendered with
    [tabIndex] -1 when collapsed and 0 when expanded, with the same active
    path and click callback. *)
Theorem DocSidebarItemCategory_collapsed_children (item : sidebar_item)
  (props : sidebar_props) (collapsed : bool) :
  let v := DocSidebarItemCategory isSamePath item props collapsed in
  (In "menu__list-item--collapsed" (cv_li_className v) <-> collapsed = true) /\
  Forall (fun e => e = ENull \/
            element_props e =
              Some {| activePath := activePath props;
                      onItemClick := onItemClick props;
                      tabIndex := Some (if collapsed then (-1)%Z else 0%Z) |})
    (cv_children v).
Proof.
  simpl. split.
  - destruct collapsed; simpl; split; intros H.
    + reflexivity.
    + right; left; reflexivity.
    + destruct H as [H|[]]; discriminate H.
    + discriminate H.
  - apply DocSidebarItems_keep_props.
Qed.

End MoreCategory.



(** X12: when the current pathname has no third "/"-separated part (such as
    "/" or "/docs"), a version button is marked active exactly when its
    resolved target has none either: [undefined == undefined] holds. *)
Theorem mobile_buttons_shallow_path (useBaseUrl : string -> string)
  (api_versions : list api_version) (pathname : string) (item : sidebar_item) :
  split_slash_2 pathname = None ->
  exists buttons,
    DocSidebarVersionDropdown useBaseUrl api_versions WSMobile (Some pathname) item
      = MobileButtonRow buttons /\
    Forall2 (fun Ver b =>
      button_marked_active b = true <-> split_slash_2 (useBaseUrl (to Ver)) = None)
      api_versions buttons.
Proof.
  intros Hp. eexists. split; [reflexivity|].
  induction api_versions as [|Ver vs IH]; simpl; constructor; [|exact IH].
  unfold mobile_button. rewrite button_marked_active_iff, js_loose_eq_opt_iff, Hp.
  split; intros H; symmetry; exact H.
Qed.

Section MoreCategoryState.

Variable isSamePath : string -> string -> bool.

(** X13: a non-collapsible category is expanded in every state it can
    reach: it mounts expanded, its header has no click handler and the
    auto-expand effect only ever expands. *)
Theorem category_not_collapsible_always_expanded (item : sidebar_item)
  (s : category_state) :
  item_collapsible item = false ->
  category_reachable isSamePath item s -> cs_collapsed s = false.
Proof.
  intros Hc. induction 1 as [p s Hm | s ev s' Hr IH Hs].
  - unfold category_mount, react_update_limit in Hm.
    rewrite category_render_settle in Hm. injection Hm as <-. simpl.
    unfold category_initialState. rewrite Hc. reflexivity.
  - destruct ev as [p|]; unfold category_step in Hs; cbv beta iota in Hs.
    + unfold react_update_limit in Hs. rewrite category_render_settle in Hs.
      injection Hs as <-. simpl. rewrite IH. reflexivity.
    + rewrite Hc in Hs. injection Hs as <-. exact IH.
Qed.

(** X14: from every reachable state, each event settles within React's
    update limit (the auto-expand effect never loops) into a reachable
    state whose active path is the navigated one, or is unchanged for a
    click. *)
Theorem category_step_settles (item : sidebar_item) (s : category_state)
  (ev : category_event) :
  category_reachable isSamePath item s ->
  exists s', category_step isSamePath item ev s = Some s' /\
    category_reachable isSamePath item s' /\
    cs_activePath s' =
      match ev with CatNavigate p => p | CatHeaderClick => cs_activePath s end.
Proof.
  intros Hr.
  assert (Hs : exists s', category_step isSamePath item ev s = Some s' /\
    cs_activePath s' =
      match ev with CatNavigate p => p | CatHeaderClick => cs_activePath s end).
  { destruct ev as [p|]; unfold category_step; cbv beta iota.
    - unfold react_update_limit. rewrite category_render_settle.
      eexists; split; reflexivity.
    - destruct (item_collapsible item).
      + unfold react_update_limit. rewrite category_render_settle.
        eexists; split; reflexivity.
      + exists s; split; reflexivity. }
  destruct Hs as [s' [Hs Hp]]. exists s'. split; [exact Hs|]. split; [|exact Hp].
  eapply category_reachable_step; eassumption.
Qed.

(** X15: a navigation never collapses a category: if it is collapsed after
    the navigation it was collapsed before. *)
Theorem category_navigate_never_collapses (item : sidebar_item)
  (s s' : category_state) (p : string) :
  category_step isSamePath item (CatNavigate p) s = Some s' ->
  cs_collapsed s' = true -> cs_collapsed s = true.
Proof.
  intros Hs Hc. unfold category_step, react_update_limit in Hs.
  cbv beta iota in Hs. rewrite category_render_settle in Hs.
  injection Hs as <-. simpl in Hc. apply andb_prop in Hc. apply Hc.
Qed.

(** X16: two clicks on the header of a collapsible category bring it back to
    the state it had: the second render after each click does not
    auto-expand. *)
Theorem category_double_click_restores (item : sidebar_item)
  (s s1 s2 : category_state) :
  item_collapsible item = true ->
  category_reachable isSamePath item s ->
  category_step isSamePath item CatHeaderClick s = Some s1 ->
  category_step isSamePath item CatHeaderClick s1 = Some s2 ->
  s2 = s.
Proof.
  intros Hc Hr H1 H2.
  pose proof (category_reachable_prevActive isSamePath item s Hr) as Hp.
  unfold category_step, react_update_limit in H1, H2. rewrite Hc in H1, H2.
  rewrite category_render_settle in H1. injection H1 as <-.
  rewrite category_render_settle in H2. injection H2 as <-.
  destruct s as [cl pa ap]. simpl in Hp |- *. subst pa.
  destruct (isActiveSidebarItem isSamePath item ap), cl; reflexivity.
Qed.

(** X17: after every render the [usePrevious] ref holds the [isActive] value
    of the current active path, so the next render compares against the
    last committed one. *)
Theorem category_usePrevious_tracks_isActive (item : sidebar_item)
  (s : category_state) :
  category_reachable isSamePath item s ->
  cs_prevActive s = Some (isActiveSidebarItem isSamePath item (cs_activePath s)).
Proof.
  induction 1 as [p s Hm | s ev s' Hr IH Hs].
  - unfold category_mount, react_update_limit in Hm.
    rewrite category_render_settle in Hm. injection Hm as <-. reflexivity.
  - destruct ev as [p|]; unfold category_step in Hs; cbv beta iota in Hs.
    + unfold react_update_limit in Hs. rewrite category_render_settle in Hs.
      injection Hs as <-. reflexivity.
    + destruct (item_collapsible item).
      * unfold react_update_limit in Hs. rewrite category_render_settle in Hs.
        injection Hs as <-. reflexivity.
      * injection Hs as <-. exact IH.
Qed.

End MoreCategoryState.



Lemma DocSidebarItemLink_active_iff_same_path_witness :
  In "menu__link--active"
    (link_className (DocSidebarItemLink String.eqb (fun _ => true)
       (SidebarItem "link" "A" "/docs/a" [] false false (CPObject (Some "get")))
       sample_props))
  <-> String.eqb "/docs/a" "/docs/a" = true.
Proof.
  apply (DocSidebarItemLink_active_iff_same_path String.eqb (fun _ => true)
           (SidebarItem "link" "A" "/docs/a" [] false false (CPObject (Some "get")))
           sample_props).
  - reflexivity.
  - intros [H|[]]; discriminate H.
Defined.





Lemma mobile_buttons_shallow_path_witness :
  split_slash_2 "/docs" = None /\
  exists buttons,
    DocSidebarVersionDropdown (fun u => u) sample_versions WSMobile (Some "/docs")
      guides_category = MobileButtonRow buttons /\
    Forall2 (fun Ver b =>
      button_marked_active b = true <-> split_slash_2 (to Ver) = None)
      sample_versions buttons.
Proof.
  split; [reflexivity|].
  apply (mobile_buttons_shallow_path (fun u => u)). reflexivity.
Defined.

Lemma category_not_collapsible_always_expanded_witness :
  category_reachable String.eqb plain_category
    {| cs_collapsed := false; cs_prevActive := Some false;
       cs_activePath := "/docs/a" |} /\
  cs_collapsed {| cs_collapsed := false; cs_prevActive := Some false;
                  cs_activePath := "/docs/a" |} = false.
Proof.
  assert (Hr : category_reachable String.eqb plain_category
    {| cs_collapsed := false; cs_prevActive := Some false;
       cs_activePath := "/docs/a" |}).
  { apply (category_reachable_mount _ _ "/docs/a"). reflexivity. }
  split; [exact Hr|].
  exact (category_not_collapsible_always_expanded String.eqb plain_category _
           eq_refl Hr).
Defined.

Lemma category_step_settles_witness :
  category_reachable String.eqb guides_category
    {| cs_collapsed := true; cs_prevActive := Some false;
       cs_activePath := "/docs/b" |} /\
  exists s', category_step String.eqb guides_category (CatNavigate "/docs/a")
    {| cs_collapsed := true; cs_prevActive := Some false;
       cs_activePath := "/docs/b" |} = Some s' /\
    category_reachable String.eqb guides_category s' /\
    cs_activePath s' = "/docs/a".
Proof.
  assert (Hr : category_reachable String.eqb guides_category
    {| cs_collapsed := true; cs_prevActive := Some false;
       cs_activePath := "/docs/b" |}).
  { apply (category_reachable_mount _ _ "/docs/b"). reflexivity. }
  split; [exact Hr|].
  exact (category_step_settles String.eqb guides_category _ (CatNavigate "/docs/a") Hr).
Defined.

Lemma category_navigate_never_collapses_witness :
  category_step String.eqb guides_category (CatNavigate "/docs/b")
    {| cs_collapsed := true; cs_prevActive := Some false;
       cs_activePath := "/docs/c" |} =
    Some {| cs_collapsed := true; cs_prevActive := Some false;
            cs_activePath := "/docs/b" |} /\
  cs_collapsed {| cs_collapsed := true; cs_prevActive := Some false;
                  cs_activePath := "/docs/c" |} = true.
Proof.
  split; [reflexivity|].
  apply (category_navigate_never_collapses String.eqb guides_category _
           {| cs_collapsed := true; cs_prevActive := Some false;
              cs_activePath := "/docs/b" |} "/docs/b"); reflexivity.
Defined.

Lemma category_double_click_restores_witness :
  category_step String.eqb guides_category CatHeaderClick
    {| cs_collapsed := false; cs_prevActive := Some true;
       cs_activePath := "/docs/a" |} =
    Some {| cs_collapsed := true; cs_prevActive := Some true;
            cs_activePath := "/docs/a" |} /\
  category_step String.eqb guides_category CatHeaderClick
    {| cs_collapsed := true; cs_prevActive := Some true;
       cs_activePath := "/docs/a" |} =
    Some {| cs_collapsed := false; cs_prevActive := Some true;
            cs_activePath := "/docs/a" |} /\
  {| cs_collapsed := false; cs_prevActive := Some true;
     cs_activePath := "/docs/a" |} =
  {| cs_collapsed := false; cs_prevActive := Some true;
     cs_activePath := "/docs/a" |}.
Proof.
  split; [reflexivity|]. split; [reflexivity|].
  apply (category_double_click_restores String.eqb guides_category _
    {| cs_collapsed := true; cs_prevActive := Some true; cs_activePath := "/docs/a" |});
    [reflexivity | apply (category_reachable_mount _ _ "/docs/a"); reflexivity
    | reflexivity | reflexivity].
Defined.

Lemma category_usePrevious_tracks_isActive_witness :
  cs_prevActive {| cs_collapsed := true; cs_prevActive := Some false;
                   cs_activePath := "/docs/b" |} =
  Some (isActiveSidebarItem String.eqb guides_category "/docs/b").
Proof.
  apply (category_usePrevious_tracks_isActive String.eqb guides_category).
  apply (category_reachable_mount _ _ "/docs/b"). reflexivity.
Defined.
